(** * go-boilerplate: entity / port / adapter / use case / logger

    A shallow embedding of the Go sources of the scaffold:
    - [internal/ports/repository]    the [MyObjectRepository] interface,
    - [internal/adapters/repository] the inert adapter,
    - [internal/usecases]            the delegating use case,
    - [internal/infra/logger]        the wrapper around the zap facility.

    Go values that can be [nil] (pointers, interfaces, slices) are options or
    carry a [nil] constructor of their own; code with effects (environment
    reads, printing, log records, process exit, panics) is a state
    transformer that returns an [outcome]. *)

From Stdlib Require Import ZArith String Ascii List Bool Lia.
From stdpp Require Import base option list strings gmap.

Open Scope string_scope.
Open Scope list_scope.

(* ===================================================================== *)
(** ** The Go runtime, as far as the sources use it                       *)
(* ===================================================================== *)

Module Go.

(** Every Go type has a zero value. *)
Class Zero (T : Type) := zero : T.
Global Hint Mode Zero ! : typeclass_instances.

(** [[]T]: a slice is [nil] or a (possibly empty) backing sequence. The two
    are different values: [[]T{}] is not [nil]. *)
Inductive slice (T : Type) : Type :=
| NilSlice
| Slice (elems : list T).
Global Arguments NilSlice {T}.
Global Arguments Slice {T} elems.

Definition len {T} (s : slice T) : nat :=
  match s with
  | NilSlice => 0
  | Slice elems => length elems
  end.

Definition is_nil_slice {T} (s : slice T) : bool :=
  match s with
  | NilSlice => true
  | Slice _ => false
  end.

Global Instance slice_zero T : Zero (slice T) := NilSlice.

(** [error]: an interface value, [nil] or an error carrying its text. *)
Definition error : Type := option string.
Definition errors_New (text : string) : error := Some text.

(** [int64] *)
Definition int64 : Type := Z.
Definition MinInt64 : int64 := (- 2 ^ 63)%Z.
Definition MaxInt64 : int64 := (2 ^ 63 - 1)%Z.
Definition in_int64 (z : Z) : bool := ((MinInt64 <=? z) && (z <=? MaxInt64))%Z.

(** [interface{}] values handed to the variadic logging methods. *)
Inductive any : Type :=
| AnyNil
| AnyString (s : string)
| AnyInt (z : Z)
| AnyBool (b : bool)
| AnyStringer (s : string).

(** [fmt]: the text that [fmt.Sprint(args...)] or
    [fmt.Sprintf(template, args...)] stands for. Formatting is not carried
    out: the call is kept as it was made. *)
Inductive text : Type :=
| Sprint (args : list any)
| Sprintf (template : string) (args : list any).

(** How a call ends: it returns, the process exits ([os.Exit]), or a panic
    unwinds the stack. *)
Inductive outcome (A : Type) : Type :=
| Return (a : A)
| Exit (code : Z)
| Panic (v : text).
Global Arguments Return {A} a.
Global Arguments Exit {A} code.
Global Arguments Panic {A} v.

(** Effectful code over a state [S]. *)
Definition M (S A : Type) : Type := S -> S * outcome A.

Definition ret {S A} (a : A) : M S A := fun s => (s, Return a).

Definition bind {S A B} (c : M S A) (k : A -> M S B) : M S B :=
  fun s =>
    match c s with
    | (s', Return a) => k a s'
    | (s', Exit code) => (s', Exit code)
    | (s', Panic v) => (s', Panic v)
    end.

Definition panic {S A} (v : text) : M S A := fun s => (s, Panic v).
Definition os_Exit {S A} (code : Z) : M S A := fun s => (s, Exit code).

Definition nil_dereference : text :=
  Sprint [AnyString "runtime error: invalid memory address or nil pointer dereference"].

Definition returned {S A} (r : S * outcome A) : bool :=
  match r with
  | (_, Return _) => true
  | _ => false
  end.

(** *** Strings *)

Definition is_upper (c : ascii) : bool :=
  let n := N_of_ascii c in ((65 <=? n) && (n <=? 90))%N.

Definition lower_byte (c : ascii) : ascii :=
  if is_upper c then ascii_of_N (N_of_ascii c + 32) else c.

(** [strings.ToLower] on a string of ASCII bytes: 'A'..'Z' become
    'a'..'z', every other byte is kept. *)
Fixpoint ascii_ToLower (s : string) : string :=
  match s with
  | EmptyString => EmptyString
  | String c s' => String (lower_byte c) (ascii_ToLower s')
  end.

Fixpoint is_ascii (s : string) : bool :=
  match s with
  | EmptyString => true
  | String c s' => (N_of_ascii c <? 128)%N && is_ascii s'
  end.

(** Equality of two bytes up to the case of an ASCII letter. *)
Definition byte_eq_fold (c d : ascii) : bool :=
  Ascii.eqb c d
  || (is_upper c && Ascii.eqb d (lower_byte c))
  || (is_upper d && Ascii.eqb c (lower_byte d)).

(** Case-insensitive comparison of two byte strings. *)
Fixpoint eq_fold (s t : string) : bool :=
  match s, t with
  | EmptyString, EmptyString => true
  | String c s', String d t' => byte_eq_fold c d && eq_fold s' t'
  | _, _ => false
  end.

(** What is assumed of [strings.ToLower]: on a string of ASCII bytes it is
    [ascii_ToLower]. Nothing is assumed of it on other strings. *)
Definition lowers_ascii (ToLower : string -> string) : Prop :=
  forall s, is_ascii s = true -> ToLower s = ascii_ToLower s.

Definition newline : string := String (ascii_of_N 10) EmptyString.

End Go.

Import Go.

(** [x ← c; k] and [c;; k] sequence effectful code. *)
Global Instance M_ret {S} : MRet (M S) := fun A => @ret S A.
Global Instance M_bind {S} : MBind (M S) := fun A B k c => @bind S A B c k.

(* ===================================================================== *)
(** ** internal/domain/entity                                             *)
(* ===================================================================== *)

Module entity.

(** Modelled from the spec: the declaration of [entity.MyObject] is not
    part of the reviewed sources; the spec describes it as an identifier
    plus payload owned by value and suggests the placeholder id + name.
    The code below is generic in the entity type; this record is the
    instance used to run it. *)
Record MyObject : Type := { ID : int64; Name : string }.

Global Instance MyObject_zero : Zero MyObject := {| ID := 0%Z; Name := "" |}.

End entity.

(* ===================================================================== *)
(** ** internal/ports/repository                                          *)
(* ===================================================================== *)

Module ports.

(** [type MyObjectRepository interface]. An implementation owns some state
    [S] of its own (a database handle, the script of a test double), which
    its methods may read and change. *)
Record MyObjectRepository (MyObject S : Type) : Type := {
  GetAllObjects : M S (slice MyObject * error);
  GetObjectByID : int64 -> M S (MyObject * error)
}.
Global Arguments GetAllObjects {MyObject S} _.
Global Arguments GetObjectByID {MyObject S} _ _.

End ports.

(* ===================================================================== *)
(** ** internal/adapters/repository                                       *)
(* ===================================================================== *)

Module repository.

(** [type MyObjectRepository struct {}] *)
Inductive MyObjectRepository : Type := mkMyObjectRepository.

Section Adapter.
Context {MyObject : Type} `{!Zero MyObject}.

(** [func NewMyObjectRepository() *MyObjectRepository] *)
Definition NewMyObjectRepository : option MyObjectRepository :=
  Some mkMyObjectRepository.

(** [func (r *MyObjectRepository) GetAllObjects() ([]entity.MyObject, error)].
    The receiver is a pointer and is never dereferenced. *)
Definition GetAllObjects (r : option MyObjectRepository)
  : slice MyObject * error :=
  (Slice [], None).

(** [func (r *MyObjectRepository) GetObjectByID(id int64) (entity.MyObject, error)] *)
Definition GetObjectByID (r : option MyObjectRepository) (id : int64)
  : MyObject * error :=
  (zero, None).

(** The adapter seen through the port, next to any state [S]. *)
Definition as_port {S : Type} (r : option MyObjectRepository)
  : ports.MyObjectRepository MyObject S :=
  {| ports.GetAllObjects := ret (GetAllObjects r);
     ports.GetObjectByID := fun id => ret (GetObjectByID r id) |}.

End Adapter.
End repository.

(* ===================================================================== *)
(** ** internal/usecases                                                  *)
(* ===================================================================== *)

Module usecases.
Section UseCase.
Context {MyObject : Type} `{!Zero MyObject} {S : Type}.

(** [type MyObjectUseCase struct { myObjectRepo repository.MyObjectRepository }];
    the field is an interface value and may be [nil]. *)
Record MyObjectUseCase : Type := {
  myObjectRepo : option (ports.MyObjectRepository MyObject S)
}.

(** [func NewMyObjectUseCase(myObjectRepo repository.MyObjectRepository) *MyObjectUseCase] *)
Definition NewMyObjectUseCase
    (repo : option (ports.MyObjectRepository MyObject S))
  : option MyObjectUseCase :=
  Some {| myObjectRepo := repo |}.

(** Reading [uc.myObjectRepo] and calling a method of it. *)
Definition repo_of (uc : option MyObjectUseCase)
  : M S (ports.MyObjectRepository MyObject S) :=
  match uc with
  | None => panic nil_dereference
  | Some u =>
      match myObjectRepo u with
      | None => panic nil_dereference
      | Some repo => ret repo
      end
  end.

(** [func (uc *MyObjectUseCase) GetAllObjects() ([]entity.MyObject, error)] *)
Definition GetAllObjects (uc : option MyObjectUseCase)
  : M S (slice MyObject * error) :=
  repo ← repo_of uc;
  '(objects, err) ← ports.GetAllObjects repo;
  match err with
  | Some _ => ret (NilSlice, err)
  | None => ret (objects, None)
  end.

(** [func (uc *MyObjectUseCase) GetObjectByID(id int64) (entity.MyObject, error)] *)
Definition GetObjectByID (uc : option MyObjectUseCase) (id : int64)
  : M S (MyObject * error) :=
  repo ← repo_of uc;
  '(object, err) ← ports.GetObjectByID repo id;
  match err with
  | Some _ => ret (zero, err)
  | None => ret (object, None)
  end.

End UseCase.
Global Arguments MyObjectUseCase : clear implicits.
End usecases.

(* ===================================================================== *)
(** ** The process: environment, standard output, log sinks               *)
(* ===================================================================== *)

Module zapcore.

(** [zapcore.Level], an [int8]: Debug is -1, Info 0, ... Fatal 5. *)
Inductive Level : Type :=
| DebugLevel | InfoLevel | WarnLevel | ErrorLevel
| DPanicLevel | PanicLevel | FatalLevel.

Definition Level_value (l : Level) : Z :=
  match l with
  | DebugLevel => -1
  | InfoLevel => 0
  | WarnLevel => 1
  | ErrorLevel => 2
  | DPanicLevel => 3
  | PanicLevel => 4
  | FatalLevel => 5
  end.

(** [func (l Level) String() string] *)
Definition Level_String (l : Level) : string :=
  match l with
  | DebugLevel => "debug"
  | InfoLevel => "info"
  | WarnLevel => "warn"
  | ErrorLevel => "error"
  | DPanicLevel => "dpanic"
  | PanicLevel => "panic"
  | FatalLevel => "fatal"
  end.

(** [func (l Level) Enabled(lvl Level) bool { return lvl >= l }] *)
Definition Enabled (l lvl : Level) : bool := (Level_value l <=? Level_value lvl)%Z.

(** [zapcore.WriteSyncer]: where records go. [Stdout] is
    [zapcore.AddSync(os.Stdout)]; any other sink is known by a name. A sink
    is taken to accept what is written to it: its [Write] returns, it does
    not panic. What its [Sync] answers is part of the process state. *)
Inductive WriteSyncer : Type :=
| Stdout
| Sink (name : string).

Inductive LevelEncoder : Type :=
| LowercaseLevelEncoder | CapitalLevelEncoder | CapitalColorLevelEncoder.

Inductive TimeEncoder : Type :=
| EpochTimeEncoder | ISO8601TimeEncoder.

(** [zapcore.EncoderConfig], the fields the logger package sets. *)
Record EncoderConfig : Type := {
  MessageKey : string;
  LevelKey : string;
  TimeKey : string;
  CallerKey : string;
  StacktraceKey : string;
  EncodeLevel : LevelEncoder;
  EncodeTime : TimeEncoder
}.

(** [zapcore.Encoder], built by [NewConsoleEncoder] or [NewJSONEncoder]. *)
Inductive Encoder : Type :=
| NewConsoleEncoder (cfg : EncoderConfig)
| NewJSONEncoder (cfg : EncoderConfig).

Definition is_console (e : Encoder) : bool :=
  match e with
  | NewConsoleEncoder _ => true
  | NewJSONEncoder _ => false
  end.

(** [zapcore.NewCore(enc, ws, enab)] *)
Record Core : Type := NewCore {
  enc : Encoder;
  out : WriteSyncer;
  level : Level
}.

End zapcore.

Module os.

(** What the process does that can be seen from outside, oldest first. *)
Inductive event : Type :=
| Printed (t : text)
| Logged (ws : zapcore.WriteSyncer) (e : zapcore.Encoder)
         (lvl : zapcore.Level) (msg : text)
| Synced (ws : zapcore.WriteSyncer).

(** The process state: its environment variables, what [Sync] answers on
    each sink, and the events so far. *)
Record World : Type := {
  environ : gmap string string;
  sync_result : zapcore.WriteSyncer -> error;
  trace : list event
}.

Definition emit (e : event) (w : World) : World :=
  {| environ := environ w; sync_result := sync_result w;
     trace := trace w ++ [e] |}.

Definition lookup_env (w : World) (key : string) : string :=
  default "" (environ w !! key).

(** [os.Getenv]: the value, or the empty string when the variable is unset. *)
Definition Getenv (key : string) : M World string :=
  fun w => (w, Return (lookup_env w key)).

(** [fmt.Printf] writes to [os.Stdout]. *)
Definition Printf (template : string) (args : list any) : M World unit :=
  fun w => (emit (Printed (Sprintf template args)) w, Return tt).

(** The log records among some events, and the texts printed directly. *)
Definition records (t : list event) : list (zapcore.Level * text) :=
  flat_map (fun e => match e with
                     | Logged _ _ lvl msg => [(lvl, msg)]
                     | _ => []
                     end) t.

Definition printed (t : list event) : list text :=
  flat_map (fun e => match e with
                     | Printed t => [t]
                     | _ => []
                     end) t.

End os.

(* ===================================================================== *)
(** ** go.uber.org/zap, as far as the logger package uses it             *)
(* ===================================================================== *)

Module zap.
Import zapcore os.

(** [zap.NewDevelopmentEncoderConfig()] *)
Definition NewDevelopmentEncoderConfig : EncoderConfig :=
  {| MessageKey := "M"; LevelKey := "L"; TimeKey := "T"; CallerKey := "C";
     StacktraceKey := "S";
     EncodeLevel := CapitalLevelEncoder; EncodeTime := ISO8601TimeEncoder |}.

(** [zap.NewProductionEncoderConfig()] *)
Definition NewProductionEncoderConfig : EncoderConfig :=
  {| MessageKey := "msg"; LevelKey := "level"; TimeKey := "ts";
     CallerKey := "caller"; StacktraceKey := "stacktrace";
     EncodeLevel := LowercaseLevelEncoder; EncodeTime := EpochTimeEncoder |}.

(** [*zap.Logger] *)
Record Logger : Type := {
  core : Core;
  addCaller : bool;
  callerSkip : Z;
  addStack : option Level
}.

(** [zap.Option] *)
Inductive Option : Type :=
| AddCaller
| AddCallerSkip (skip : Z)
| AddStacktrace (lvl : Level).

Definition apply (log : Logger) (opt : Option) : Logger :=
  match opt with
  | AddCaller =>
      {| core := core log; addCaller := true;
         callerSkip := callerSkip log; addStack := addStack log |}
  | AddCallerSkip skip =>
      {| core := core log; addCaller := addCaller log;
         callerSkip := callerSkip log + skip; addStack := addStack log |}
  | AddStacktrace lvl =>
      {| core := core log; addCaller := addCaller log;
         callerSkip := callerSkip log; addStack := Some lvl |}
  end.

(** [zap.New(core, options...)] *)
Definition New (c : Core) (options : list Option) : Logger :=
  fold_left apply options
    {| core := c; addCaller := false; callerSkip := 0; addStack := None |}.

(** [*zap.SugaredLogger] *)
Record SugaredLogger : Type := { base : Logger }.

(** [func (log *Logger) Sugar() *SugaredLogger] *)
Definition Sugar (log : Logger) : SugaredLogger :=
  {| base := {| core := core log; addCaller := addCaller log;
                callerSkip := callerSkip log + 2; addStack := addStack log |} |}.

(** [getMessage(template, fmtArgs)] of the sugared logger: without
    arguments the template is the message as it stands, with no verb of it
    interpreted; with arguments it is [fmt.Sprintf], or [fmt.Sprint] when
    the template is empty. *)
Definition getMessage (template : string) (fmtArgs : list any) : text :=
  match fmtArgs with
  | [] => Sprint [AnyString template]
  | _ :: _ =>
      if String.eqb template "" then Sprint fmtArgs else Sprintf template fmtArgs
  end.

(** One logging call at level [lvl]: the record reaches the sink when the
    core enables the level, and the core then syncs the sink when the record
    is above the error level, dropping what [Sync] answers; a panic-level
    call then panics with the message and a fatal-level call then exits with
    status 1, written or not. *)
Definition log (s : SugaredLogger) (lvl : Level) (msg : text) : M World unit :=
  fun w =>
    let c := core (base s) in
    let w' := if Enabled (level c) lvl
              then
                let written := emit (Logged (out c) (enc c) lvl msg) w in
                if (Level_value ErrorLevel <? Level_value lvl)%Z
                then emit (Synced (out c)) written
                else written
              else w in
    match lvl with
    | PanicLevel => (w', Panic msg)
    | FatalLevel => (w', Exit 1)
    | _ => (w', Return tt)
    end.

(** The plain forms pass an empty template: the message is
    [fmt.Sprint(args...)]. *)
Definition Debug (s : SugaredLogger) (args : list any) := log s DebugLevel (Sprint args).
Definition Debugf (s : SugaredLogger) (template : string) (args : list any) :=
  log s DebugLevel (getMessage template args).
Definition Info (s : SugaredLogger) (args : list any) := log s InfoLevel (Sprint args).
Definition Infof (s : SugaredLogger) (template : string) (args : list any) :=
  log s InfoLevel (getMessage template args).
Definition Warn (s : SugaredLogger) (args : list any) := log s WarnLevel (Sprint args).
Definition Warnf (s : SugaredLogger) (template : string) (args : list any) :=
  log s WarnLevel (getMessage template args).
Definition Error (s : SugaredLogger) (args : list any) := log s ErrorLevel (Sprint args).
Definition Errorf (s : SugaredLogger) (template : string) (args : list any) :=
  log s ErrorLevel (getMessage template args).
Definition Fatal (s : SugaredLogger) (args : list any) := log s FatalLevel (Sprint args).
Definition Fatalf (s : SugaredLogger) (template : string) (args : list any) :=
  log s FatalLevel (getMessage template args).
Definition Panic (s : SugaredLogger) (args : list any) := log s PanicLevel (Sprint args).
Definition Panicf (s : SugaredLogger) (template : string) (args : list any) :=
  log s PanicLevel (getMessage template args).

(** [func (log *Logger) Sync() error]: syncs the sink of the core. *)
Definition Sync (l : Logger) : M World error :=
  fun w => (emit (Synced (out (core l))) w, Return (sync_result w (out (core l)))).

End zap.

(* ===================================================================== *)
(** ** internal/infra/logger                                              *)
(* ===================================================================== *)

Module logger.
Import zapcore os.

(** [type Logger struct { zap *zap.Logger; sugar *zap.SugaredLogger }] *)
Record Logger : Type := {
  zap : option zap.Logger;
  sugar : option zap.SugaredLogger
}.

(** [type Config struct]; [Output] is an interface value and may be [nil]. *)
Record Config : Type := {
  IsDevelopment : bool;
  Output : option WriteSyncer;
  CallerSkip : Z
}.

Global Instance Config_zero : Zero Config :=
  {| IsDevelopment := false; Output := None; CallerSkip := 0 |}.

Definition invalid_level_warning : string :=
  String.append "Nível de log inválido, usando 'info' como padrão." newline.

Section NewLogger.

(** [strings.ToLower] of the Go standard library. *)
Variable ToLower : string -> string.

(** [func NewLogger(cfg Config)], returning a [Logger] pointer and an error. *)
Definition NewLogger (cfg : Config) : M World (option Logger * error) :=
  envLogLevel ← Getenv "LOG_LEVEL";
  logLevel ←
    (let tag := ToLower envLogLevel in
     if String.eqb tag "debug" then mret DebugLevel
     else if String.eqb tag "info" then mret InfoLevel
     else if String.eqb tag "warn" then mret WarnLevel
     else if String.eqb tag "error" then mret ErrorLevel
     else if String.eqb tag "fatal" then mret FatalLevel
     else if String.eqb tag "panic" then mret PanicLevel
     else (Printf invalid_level_warning [];; mret InfoLevel));
  isDevelopmentMode ←
    (if negb (IsDevelopment cfg)
     then (v ← Getenv "DEV_MODE";
           let devEnv := ToLower v in
           if String.eqb devEnv "true" then mret true
           else mret (IsDevelopment cfg))
     else mret (IsDevelopment cfg));
  let output :=
    match Output cfg with
    | None => Stdout
    | Some ws => ws
    end in
  let encoder :=
    if isDevelopmentMode : bool
    then
      let devEncoderConfig := zap.NewDevelopmentEncoderConfig in
      NewConsoleEncoder
        {| MessageKey := MessageKey devEncoderConfig;
           LevelKey := LevelKey devEncoderConfig;
           TimeKey := TimeKey devEncoderConfig;
           CallerKey := "caller";
           StacktraceKey := StacktraceKey devEncoderConfig;
           EncodeLevel := CapitalColorLevelEncoder;
           EncodeTime := ISO8601TimeEncoder |}
    else
      let encoderConfig := zap.NewProductionEncoderConfig in
      NewJSONEncoder
        {| MessageKey := "message";
           LevelKey := "level";
           TimeKey := "timestamp";
           CallerKey := "caller";
           StacktraceKey := "stacktrace";
           EncodeLevel := CapitalLevelEncoder;
           EncodeTime := ISO8601TimeEncoder |} in
  let core := NewCore encoder output logLevel in
  let callerSkip := if (CallerSkip cfg <=? 0)%Z then 1%Z else CallerSkip cfg in
  let loggerOpts :=
    [zap.AddCaller; zap.AddCallerSkip callerSkip; zap.AddStacktrace ErrorLevel] in
  let zapLogger := zap.New core loggerOpts in
  let sugaredLogger := zap.Sugar zapLogger in
  let l := {| zap := Some zapLogger; sugar := Some sugaredLogger |} in
  zap.Info sugaredLogger [AnyString "Logger successfully initialized."];;
  (if isDevelopmentMode
   then zap.Debug sugaredLogger [AnyString "Development mode ENABLED (console output)."]
   else zap.Debug sugaredLogger [AnyString "Production mode ENABLED (JSON output)."]);;
  zap.Debugf sugaredLogger "Log level: %s" [AnyStringer (Level_String logLevel)];;
  mret (Some l, None).

End NewLogger.

(** [func (l *Logger) Sync() error] *)
Definition Sync (l : option Logger) : M World error :=
  match l with
  | None => mret None
  | Some lg =>
      match zap lg with
      | None => mret None
      | Some z => zap.Sync z
      end
  end.

(** [func (l *Logger) GetZap() *zap.Logger] *)
Definition GetZap (l : option Logger) : M World (option zap.Logger) :=
  match l with
  | None => panic nil_dereference
  | Some lg => mret (zap lg)
  end.

(** [func (l *Logger) GetSugar() *zap.SugaredLogger] *)
Definition GetSugar (l : option Logger) : M World (option zap.SugaredLogger) :=
  match l with
  | None => panic nil_dereference
  | Some lg => mret (sugar lg)
  end.

(** The guard [if l == nil || l.sugar == nil { return }] that opens every
    leveled method, followed by the call on [l.sugar]. *)
Definition guarded (l : option Logger) (call : zap.SugaredLogger -> M World unit)
  : M World unit :=
  match l with
  | None => mret tt
  | Some lg =>
      match sugar lg with
      | None => mret tt
      | Some s => call s
      end
  end.

Definition Debug (l : option Logger) (args : list any) : M World unit :=
  guarded l (fun s => zap.Debug s args).
Definition Debugf (l : option Logger) (template : string) (args : list any) : M World unit :=
  guarded l (fun s => zap.Debugf s template args).
Definition Info (l : option Logger) (args : list any) : M World unit :=
  guarded l (fun s => zap.Info s args).
Definition Infof (l : option Logger) (template : string) (args : list any) : M World unit :=
  guarded l (fun s => zap.Infof s template args).
Definition Warn (l : option Logger) (args : list any) : M World unit :=
  guarded l (fun s => zap.Warn s args).
Definition Warnf (l : option Logger) (template : string) (args : list any) : M World unit :=
  guarded l (fun s => zap.Warnf s template args).
Definition Error (l : option Logger) (args : list any) : M World unit :=
  guarded l (fun s => zap.Error s args).
Definition Errorf (l : option Logger) (template : string) (args : list any) : M World unit :=
  guarded l (fun s => zap.Errorf s template args).
Definition Fatal (l : option Logger) (args : list any) : M World unit :=
  guarded l (fun s => zap.Fatal s args).
Definition Fatalf (l : option Logger) (template : string) (args : list any) : M World unit :=
  guarded l (fun s => zap.Fatalf s template args).
Definition Panic (l : option Logger) (args : list any) : M World unit :=
  guarded l (fun s => zap.Panic s args).
Definition Panicf (l : option Logger) (template : string) (args : list any) : M World unit :=
  guarded l (fun s => zap.Panicf s template args).

(** *** Reading a logger *)

(** The instance is absent for the leveled methods: [l == nil || l.sugar == nil]. *)
Definition uninitialized (l : option Logger) : bool :=
  match l with
  | None => true
  | Some lg => match sugar lg with None => true | Some _ => false end
  end.

(** The logger a run of [NewLogger] returned, if it returned one. *)
Definition built (run : World * outcome (option Logger * error)) : option Logger :=
  match snd run with
  | Return (l, _) => l
  | _ => None
  end.

(** The core the leveled methods of [l] write through. *)
Definition core_of (l : option Logger) : option Core :=
  match l with
  | None => None
  | Some lg => (fun s => zap.core (zap.base s)) <$> sugar lg
  end.

(** The level names the spec lists for [LOG_LEVEL]. *)
Definition level_names : list (string * Level) :=
  [("debug", DebugLevel); ("info", InfoLevel); ("warn", WarnLevel);
   ("error", ErrorLevel); ("fatal", FatalLevel); ("panic", PanicLevel)].

Definition parse_level (tag : string) : option Level :=
  snd <$> find (fun entry => String.eqb tag (fst entry)) level_names.

(** The three logging calls that end [NewLogger], in order. *)
Definition startup_calls (dev : bool) (lvl : Level) : list (Level * text) :=
  [(InfoLevel, Sprint [AnyString "Logger successfully initialized."]);
   (DebugLevel,
    Sprint [AnyString (if dev then "Development mode ENABLED (console output)."
                       else "Production mode ENABLED (JSON output).")]);
   (DebugLevel, Sprintf "Log level: %s" [AnyStringer (Level_String lvl)])].

(** The calls among [calls] that a core at level [lvl] lets through. *)
Definition let_through (lvl : Level) (calls : list (Level * text))
  : list (Level * text) :=
  List.filter (fun call => Enabled lvl (fst call)) calls.

End logger.


(* ===================================================================== *)
(** ** Test doubles and sample states                                     *)
(* ===================================================================== *)

Module samples.
Import entity.

Definition widget : MyObject := {| ID := 7%Z; Name := "widget" |}.

(** A port whose operations fail and still hand back a value next to the
    error, as a Go function may. *)
Definition partial_failure : ports.MyObjectRepository MyObject unit :=
  {| ports.GetAllObjects := mret (Slice [widget], errors_New "connection lost");
     ports.GetObjectByID := fun id => mret (widget, errors_New "stale read") |}.

(** A port that counts its calls and answers from a fixed table. *)
Definition counting (table : list MyObject) : ports.MyObjectRepository MyObject nat :=
  {| ports.GetAllObjects := fun n => (S n, Return (Slice table, None));
     ports.GetObjectByID := fun id n =>
       match find (fun o => Z.eqb (ID o) id) table with
       | Some o => (S n, Return (o, None))
       | None => (S n, Return (zero, errors_New "not found"))
       end |}.

(** A process with the given environment, nothing printed yet, whose sinks
    sync without error. *)
Definition process (vars : list (string * string)) : os.World :=
  {| os.environ := list_to_map vars;
     os.sync_result := fun _ => None;
     os.trace := [] |}.

(** An initialized logger writing JSON to standard output at info level. *)
Definition info_logger : logger.Logger :=
  let z := zap.New (zapcore.NewCore
                      (zapcore.NewJSONEncoder zap.NewProductionEncoderConfig)
                      zapcore.Stdout zapcore.InfoLevel)
                   [zap.AddCaller; zap.AddCallerSkip 1] in
  {| logger.zap := Some z; logger.sugar := Some (zap.Sugar z) |}.

(** U+0130, capital I with a dot above, in UTF-8: the bytes C4 B0. *)
Definition dotted_I : string :=
  String (ascii_of_N 196) (String (ascii_of_N 176) EmptyString).

(** A lower-casing that follows Go beyond ASCII at one rune: like
    [strings.ToLower] it turns U+0130 into the letter i; every other byte
    is lowered as an ASCII byte. *)
Fixpoint ToLower_dotted (s : string) : string :=
  match s with
  | EmptyString => EmptyString
  | String c tail =>
      match tail with
      | String d rest =>
          if ((N_of_ascii c =? 196) && (N_of_ascii d =? 176))%N
          then String "i"%char (ToLower_dotted rest)
          else String (lower_byte c) (ToLower_dotted tail)
      | EmptyString => String (lower_byte c) EmptyString
      end
  end.

(** The zero [Logger{}]: both fields nil. *)
Definition empty_logger : logger.Logger :=
  {| logger.zap := None; logger.sugar := None |}.

End samples.

(* ===================================================================== *)
(** ** main.go                                                             *)
(* ===================================================================== *)

Module app.
Import zapcore os.

(** [defer call] before [body]: the deferred call runs when the body returns
    and when it panics (the panic then goes on), and does not run when the
    process exits under [os.Exit]. What the deferred call returns is
    dropped. *)
Definition defer {A B : Type} (call : M World B) (body : M World A) : M World A :=
  fun w =>
    match body w with
    | (w', Return a) =>
        match call w' with
        | (w'', Return _) => (w'', Return a)
        | (w'', Exit code) => (w'', Exit code)
        | (w'', Panic v) => (w'', Panic v)
        end
    | (w', Panic v) =>
        match call w' with
        | (w'', Return _) => (w'', Panic v)
        | (w'', Exit code) => (w'', Exit code)
        | (w'', Panic v') => (w'', Panic v')
        end
    | (w', Exit code) => (w', Exit code)
    end.

Section Main.

(** [strings.ToLower] of the Go standard library. *)
Variable ToLower : string -> string.

(** [cmd.Execute] of the package [cmd], which is not among the sources. *)
Variable Execute : M World unit.

(** [log.Fatalf] of the Go standard library. *)
Variable log_Fatalf : string -> list any -> M World unit.

(** [func main()] *)
Definition main : M World unit :=
  let loggerConfig : logger.Config := zero in
  '(appLogger, err) ← logger.NewLogger ToLower loggerConfig;
  (match err with
   | Some e => log_Fatalf "Falha ao inicializar o logger: %v" [AnyStringer e]
   | None => mret tt
   end);;
  defer (logger.Sync appLogger) Execute.

End Main.

(** The process [w] after the further events [added]. *)
Definition extend (w : World) (added : list event) : World :=
  {| environ := environ w; sync_result := sync_result w;
     trace := trace w ++ added |}.

(** The configuration an encoder was built from. *)
Definition config_of (e : Encoder) : EncoderConfig :=
  match e with
  | NewConsoleEncoder cfg => cfg
  | NewJSONEncoder cfg => cfg
  end.

(** The sink and the encoder of every record among some events. *)
Definition written_through (ws : WriteSyncer) (e : Encoder) (ev : event) : Prop :=
  match ev with
  | Logged ws' e' _ _ => ws' = ws /\ e' = e
  | Printed _ => True
  | Synced _ => True
  end.

End app.

(** A [*MyObjectUseCase] has the method set of the port, so it can be
    injected where a [repository.MyObjectRepository] is asked for. *)
Definition usecase_as_port {MyObject : Type} `{!Zero MyObject} {S : Type}
    (uc : option (usecases.MyObjectUseCase MyObject S))
  : ports.MyObjectRepository MyObject S :=
  {| ports.GetAllObjects := usecases.GetAllObjects uc;
     ports.GetObjectByID := usecases.GetObjectByID uc |}.

(* ===================================================================== *)
(** ** Use case and adapter                                                *)
(* ===================================================================== *)

Section UseCaseFacts.
Context {MyObject : Type} `{!Zero MyObject} {S : Type}.
Implicit Types (p : ports.MyObjectRepository MyObject S) (s : S) (id : int64).

Lemma repo_of_injected p s :
  usecases.repo_of (usecases.NewMyObjectUseCase (Some p)) s = (s, Return p).
Proof. reflexivity. Qed.

Lemma GetAllObjects_run p s :
  usecases.GetAllObjects (usecases.NewMyObjectUseCase (Some p)) s =
  match ports.GetAllObjects p s with
  | (s', Return (objects, None)) => (s', Return (objects, None))
  | (s', Return (_, Some e)) => (s', Return (NilSlice, Some e))
  | (s', Exit code) => (s', Exit code)
  | (s', Panic v) => (s', Panic v)
  end.
Proof.
  unfold usecases.GetAllObjects, mbind, M_bind, bind.
  rewrite repo_of_injected.
  destruct (ports.GetAllObjects p s) as [s' [[objects [e|]]|code|v]]; reflexivity.
Qed.

Lemma GetObjectByID_run p id s :
  usecases.GetObjectByID (usecases.NewMyObjectUseCase (Some p)) id s =
  match ports.GetObjectByID p id s with
  | (s', Return (object, None)) => (s', Return (object, None))
  | (s', Return (_, Some e)) => (s', Return (zero, Some e))
  | (s', Exit code) => (s', Exit code)
  | (s', Panic v) => (s', Panic v)
  end.
Proof.
  unfold usecases.GetObjectByID, mbind, M_bind, bind.
  rewrite repo_of_injected.
  destruct (ports.GetObjectByID p id s) as [s' [[object [e|]]|code|v]]; reflexivity.
Qed.

(** A use case built without a port panics on its first call. *)
Lemma GetAllObjects_nil_port s :
  usecases.GetAllObjects
    (usecases.NewMyObjectUseCase (MyObject := MyObject) None) s
  = (s, Panic nil_dereference).
Proof. reflexivity. Qed.

(** C1 (as amended). For every injected port and every input, when the port
    operation returns a value and an error, the use case returns in the same
    state with the same error, not wrapped; on success the value is the
    port's value, on failure it is the nil slice (the zero entity for
    [GetObjectByID]) whatever value the port paired with the error. *)
Theorem usecase_delegates p s id :
  (forall s' objects err,
      ports.GetAllObjects p s = (s', Return (objects, err)) ->
      exists objects',
        usecases.GetAllObjects (usecases.NewMyObjectUseCase (Some p)) s
        = (s', Return (objects', err))
        /\ (err = None -> objects' = objects)
        /\ (err <> None -> objects' = NilSlice))
  /\ (forall s' object err,
      ports.GetObjectByID p id s = (s', Return (object, err)) ->
      exists object',
        usecases.GetObjectByID (usecases.NewMyObjectUseCase (Some p)) id s
        = (s', Return (object', err))
        /\ (err = None -> object' = object)
        /\ (err <> None -> object' = zero)).
Proof.
  split.
  - intros s' objects err Hport.
    rewrite GetAllObjects_run, Hport.
    destruct err as [e|].
    + exists NilSlice. repeat split; congruence.
    + exists objects. repeat split; congruence.
  - intros s' object err Hport.
    rewrite GetObjectByID_run, Hport.
    destruct err as [e|].
    + exists zero. repeat split; congruence.
    + exists object. repeat split; congruence.
Qed.

(** C6. When the port operation returns a non-nil error, the use case drops
    the value that came with it: [GetAllObjects] returns the nil slice and
    [GetObjectByID] the zero-valued entity, each with that same error. *)
Theorem usecase_discards_value_on_error p s id :
  (forall s' objects e,
      ports.GetAllObjects p s = (s', Return (objects, Some e)) ->
      usecases.GetAllObjects (usecases.NewMyObjectUseCase (Some p)) s
      = (s', Return (NilSlice, Some e)))
  /\ (forall s' object e,
      ports.GetObjectByID p id s = (s', Return (object, Some e)) ->
      usecases.GetObjectByID (usecases.NewMyObjectUseCase (Some p)) id s
      = (s', Return (zero, Some e))).
Proof.
  split.
  - intros s' objects e Hport. now rewrite GetAllObjects_run, Hport.
  - intros s' object e Hport. now rewrite GetObjectByID_run, Hport.
Qed.

(** C9. Whatever the receiver and whatever the state around it, the
    adapter's [GetAllObjects] returns the empty, non-nil slice and a nil
    error; seen through the port it leaves the state as it was, and calling
    it again gives the same answer. *)
Theorem adapter_GetAllObjects_empty (r : option repository.MyObjectRepository) s :
  let adapter := repository.as_port (MyObject := MyObject) (S := S) r in
  repository.GetAllObjects (MyObject := MyObject) r = (Slice [], None)
  /\ len (fst (repository.GetAllObjects (MyObject := MyObject) r)) = 0
  /\ ports.GetAllObjects adapter s = (s, Return (Slice [], None))
  /\ (ports.GetAllObjects adapter;; ports.GetAllObjects adapter) s
     = ports.GetAllObjects adapter s.
Proof. repeat split. Qed.

(** C10. For every id, the adapter's [GetObjectByID] returns the zero-valued
    entity and a nil error, and through the port it leaves the state as it
    was. *)
Theorem adapter_GetObjectByID_zero (r : option repository.MyObjectRepository) id s :
  let adapter := repository.as_port (MyObject := MyObject) (S := S) r in
  repository.GetObjectByID (MyObject := MyObject) r id = (zero, None)
  /\ ports.GetObjectByID adapter id s = (s, Return (zero, None)).
Proof. split; reflexivity. Qed.

(** The use case over the adapter: always the adapter's answers. *)
Lemma usecase_over_adapter (r : option repository.MyObjectRepository) id s :
  let adapter := repository.as_port (MyObject := MyObject) (S := S) r in
  usecases.GetAllObjects (usecases.NewMyObjectUseCase (Some adapter)) s
  = (s, Return (Slice [], None))
  /\ usecases.GetObjectByID (usecases.NewMyObjectUseCase (Some adapter)) id s
     = (s, Return (zero, None)).
Proof. split; reflexivity. Qed.

End UseCaseFacts.

(* ===================================================================== *)
(** ** Strings                                                             *)
(* ===================================================================== *)

Lemma lower_byte_idem c : lower_byte (lower_byte c) = lower_byte c.
Proof. destruct c as [[] [] [] [] [] [] [] []]; reflexivity. Qed.

Lemma is_upper_ascii c : is_upper c = true -> (N_of_ascii c <? 128)%N = true.
Proof. destruct c as [[] [] [] [] [] [] [] []]; intros H; (reflexivity || discriminate H). Qed.

Lemma lower_byte_ascii c :
  (N_of_ascii (lower_byte c) <? 128)%N = (N_of_ascii c <? 128)%N.
Proof. destruct c as [[] [] [] [] [] [] [] []]; reflexivity. Qed.

Lemma byte_eq_fold_cases c d :
  byte_eq_fold c d = true ->
  c = d \/ (is_upper c = true /\ d = lower_byte c)
  \/ (is_upper d = true /\ c = lower_byte d).
Proof.
  unfold byte_eq_fold. intros H.
  apply orb_prop in H as [H | H]; [apply orb_prop in H as [H | H] |].
  - left. now apply Ascii.eqb_eq.
  - apply andb_prop in H as [Hu He]. apply Ascii.eqb_eq in He. auto.
  - apply andb_prop in H as [Hu He]. apply Ascii.eqb_eq in He. auto.
Qed.

Lemma byte_eq_fold_lower c d :
  byte_eq_fold c d = true -> lower_byte c = lower_byte d.
Proof.
  intros H. destruct (byte_eq_fold_cases c d H) as [-> | [[_ ->] | [_ ->]]];
    now rewrite ?lower_byte_idem.
Qed.

Lemma byte_eq_fold_ascii c d :
  byte_eq_fold c d = true ->
  (N_of_ascii d <? 128)%N = true -> (N_of_ascii c <? 128)%N = true.
Proof.
  intros H Hd. destruct (byte_eq_fold_cases c d H) as [-> | [[Hu _] | [_ ->]]].
  - exact Hd.
  - now apply is_upper_ascii.
  - now rewrite lower_byte_ascii.
Qed.

(** Strings equal up to case have the same lower-case form. *)
Lemma eq_fold_lower s : forall t,
  eq_fold s t = true -> ascii_ToLower s = ascii_ToLower t.
Proof.
  induction s as [|c s IH]; intros [|d t] H; simpl in *; try discriminate.
  - reflexivity.
  - apply andb_prop in H as [Hc Hs].
    now rewrite (byte_eq_fold_lower c d Hc), (IH t Hs).
Qed.

Lemma eq_fold_ascii s : forall t,
  eq_fold s t = true -> is_ascii t = true -> is_ascii s = true.
Proof.
  induction s as [|c s IH]; intros [|d t] H Ht; simpl in *; try discriminate.
  - reflexivity.
  - apply andb_prop in H as [Hc Hs]. apply andb_prop in Ht as [Hd Ht].
    rewrite (byte_eq_fold_ascii c d Hc Hd). simpl. now apply (IH t).
Qed.

Lemma is_upper_bound c : is_upper c = true -> (N_of_ascii c + 32 < 256)%N.
Proof.
  unfold is_upper. cbv zeta. intros H. apply andb_prop in H as [_ H].
  apply N.leb_le in H. lia.
Qed.

(** Two bytes with the same lower-case form are equal up to case. *)
Lemma lower_byte_eq_fold c d :
  lower_byte c = lower_byte d -> byte_eq_fold c d = true.
Proof.
  unfold byte_eq_fold, lower_byte.
  destruct (is_upper c) eqn:Uc, (is_upper d) eqn:Ud; simpl; intros H.
  - apply (f_equal N_of_ascii) in H.
    rewrite !N_ascii_embedding in H by now apply is_upper_bound.
    assert (Hcd : c = d).
    { rewrite <- (ascii_N_embedding c), <- (ascii_N_embedding d).
      f_equal. lia. }
    subst d. now rewrite Ascii.eqb_refl.
  - subst d. now rewrite Ascii.eqb_refl, orb_true_r.
  - subst c. now rewrite Ascii.eqb_refl, !orb_true_r.
  - subst d. now rewrite Ascii.eqb_refl.
Qed.

Lemma lower_eq_fold s : forall t,
  ascii_ToLower s = ascii_ToLower t -> eq_fold s t = true.
Proof.
  induction s as [|c s IH]; intros [|d t] H; simpl in *; try discriminate.
  - reflexivity.
  - injection H as Hc Hs.
    now rewrite (lower_byte_eq_fold c d Hc), (IH t Hs).
Qed.

(** A value that equals a lower-case ASCII name up to case is lowered to
    that name by any [ToLower] that agrees with Go on ASCII. *)
Lemma ToLower_of_eq_fold ToLower (HT : lowers_ascii ToLower) v name :
  is_ascii name = true -> ascii_ToLower name = name ->
  eq_fold v name = true -> ToLower v = name.
Proof.
  intros Hascii Hlow Hfold.
  rewrite (HT v (eq_fold_ascii v name Hfold Hascii)).
  now rewrite (eq_fold_lower v name Hfold).
Qed.

Lemma ascii_ToLower_lowers_ascii : lowers_ascii ascii_ToLower.
Proof. intros s _. reflexivity. Qed.

(* ===================================================================== *)
(** ** Logger construction                                                 *)
(* ===================================================================== *)

Section LoggerFacts.
Import zapcore os logger.
Variable ToLower : string -> string.

Lemma records_app t1 t2 : records (t1 ++ t2) = records t1 ++ records t2.
Proof. unfold records. apply flat_map_app. Qed.

Lemma printed_app t1 t2 : printed (t1 ++ t2) = printed t1 ++ printed t2.
Proof. unfold printed. apply flat_map_app. Qed.

Lemma records_Logged ws e calls :
  records (map (fun call => Logged ws e (fst call) (snd call)) calls) = calls.
Proof. induction calls as [|[lvl msg] calls IH]; simpl; [|rewrite IH]; reflexivity. Qed.

Lemma printed_Logged ws e calls :
  printed (map (fun call => Logged ws e (fst call) (snd call)) calls) = [].
Proof. induction calls as [|[lvl msg] calls IH]; simpl; [|rewrite IH]; reflexivity. Qed.

(** What one run of [NewLogger] does: it returns a logger and a nil error;
    the level and the mode come from the environment and the configuration;
    the trace grows by the warning, when the level tag is not a known name,
    and by the startup calls the level lets through. *)
Lemma NewLogger_run cfg w :
  let tag := ToLower (lookup_env w "LOG_LEVEL") in
  let lvl := default InfoLevel (parse_level tag) in
  let dev := IsDevelopment cfg || String.eqb (ToLower (lookup_env w "DEV_MODE")) "true" in
  let output := default Stdout (Output cfg) in
  exists z encoder,
    snd (NewLogger ToLower cfg w)
    = Return (Some {| zap := Some z; sugar := Some (zap.Sugar z) |}, None)
    /\ zap.core z = NewCore encoder output lvl
    /\ is_console encoder = dev
    /\ environ (fst (NewLogger ToLower cfg w)) = environ w
    /\ sync_result (fst (NewLogger ToLower cfg w)) = sync_result w
    /\ trace (fst (NewLogger ToLower cfg w))
       = trace w
         ++ (if parse_level tag is Some _ then []
             else [Printed (Sprintf invalid_level_warning [])])
         ++ map (fun call => Logged output encoder (fst call) (snd call))
                (let_through lvl (startup_calls dev lvl)).
Proof.
  intros tag lvl dev output.
  unfold NewLogger, mbind, M_bind, bind, mret, M_ret, ret, Getenv, Printf.
  fold tag. subst lvl dev output. unfold parse_level. simpl find.
  destruct (String.eqb tag "debug");
    [|destruct (String.eqb tag "info");
      [|destruct (String.eqb tag "warn");
        [|destruct (String.eqb tag "error");
          [|destruct (String.eqb tag "fatal");
            [|destruct (String.eqb tag "panic")]]]]];
    destruct (IsDevelopment cfg);
    simpl; unfold lookup_env; simpl;
    try destruct (String.eqb (ToLower _) "true");
    simpl;
    (eexists _, _; repeat split; simpl;
     rewrite <- ?app_assoc, ?app_nil_r; reflexivity).
Qed.

Lemma parse_level_name name lvl :
  In (name, lvl) level_names ->
  parse_level name = Some lvl /\ is_ascii name = true /\ ascii_ToLower name = name.
Proof.
  simpl. intros H.
  repeat (destruct H as [H | H]; [inversion H; subst; repeat split |]).
  destruct H.
Qed.

Lemma parse_level_unknown tag :
  (forall name lvl, In (name, lvl) level_names -> tag <> name) ->
  parse_level tag = None.
Proof.
  intros Hnone. unfold parse_level. simpl find.
  repeat match goal with
  | |- context [String.eqb tag ?name] =>
      destruct (String.eqb_spec tag name) as [Heq | _];
      [exfalso; eapply Hnone; [|exact Heq]; simpl; tauto |]
  end.
  reflexivity.
Qed.

Lemma lowered_name_or_not tag :
  (exists name lvl, In (name, lvl) level_names /\ tag = name)
  \/ (forall name lvl, In (name, lvl) level_names -> tag <> name).
Proof.
  destruct (parse_level tag) as [lvl|] eqn:Hparse.
  - left. unfold parse_level in Hparse. simpl find in Hparse.
    repeat match type of Hparse with
    | context [String.eqb tag ?name] =>
        destruct (String.eqb_spec tag name) as [Heq | _];
        [exists name; eexists; split; [|exact Heq]; simpl; tauto |]
    end.
    discriminate Hparse.
  - right. intros name lvl Hin Heq. subst tag.
    destruct (parse_level_name name lvl Hin) as (Hsome & _).
    rewrite Hsome in Hparse. discriminate Hparse.
Qed.

Lemma let_through_startup dev lvl :
  let_through lvl (startup_calls dev lvl)
  = match lvl with
    | DebugLevel => startup_calls dev DebugLevel
    | InfoLevel => [(InfoLevel, Sprint [AnyString "Logger successfully initialized."])]
    | _ => []
    end.
Proof. destruct lvl; reflexivity. Qed.

(** C3 (as amended). For every configuration and environment, [NewLogger]
    succeeds and makes three logging calls: one at info level confirming
    initialization, one at debug level naming the mode and one at debug level
    naming the level. The sink receives those the resolved level lets
    through: all three at debug, the confirmation alone at info, none at
    warn, error, fatal or panic. *)
Theorem NewLogger_startup_records cfg w :
  let run := NewLogger ToLower cfg w in
  exists l c,
    snd run = Return (Some l, None)
    /\ core_of (Some l) = Some c
    /\ records (trace (fst run))
       = records (trace w)
         ++ let_through (level c) (startup_calls (is_console (enc c)) (level c))
    /\ let_through (level c) (startup_calls (is_console (enc c)) (level c))
       = match level c with
         | DebugLevel =>
             [(InfoLevel, Sprint [AnyString "Logger successfully initialized."]);
              (DebugLevel,
               Sprint [AnyString
                         (if is_console (enc c)
                          then "Development mode ENABLED (console output)."
                          else "Production mode ENABLED (JSON output).")]);
              (DebugLevel, Sprintf "Log level: %s" [AnyStringer "debug"])]
         | InfoLevel =>
             [(InfoLevel, Sprint [AnyString "Logger successfully initialized."])]
         | _ => []
         end.
Proof.
  intros run. subst run.
  destruct (NewLogger_run cfg w) as (z & encoder & Hret & Hcore & Hdev & _ & _ & Htrace).
  exists {| zap := Some z; sugar := Some (zap.Sugar z) |}, (zap.core z).
  split; [exact Hret|]. split; [reflexivity|].
  rewrite Hcore. cbn [level enc]. rewrite Hdev. split.
  - rewrite Htrace, !records_app, records_Logged.
    destruct (parse_level _); reflexivity.
  - rewrite let_through_startup. destruct (default InfoLevel _); reflexivity.
Qed.

(** C4. With the development flag of the configuration unset and a
    [DEV_MODE] value equal to "true" up to case, the logger encodes for the
    console; with the flag set it encodes for the console whatever the
    environment holds. *)
Theorem NewLogger_console_encoding (HT : lowers_ascii ToLower) cfg w :
  let run := NewLogger ToLower cfg w in
  (IsDevelopment cfg = false ->
   eq_fold (lookup_env w "DEV_MODE") "true" = true ->
   exists l c, snd run = Return (Some l, None)
               /\ core_of (Some l) = Some c /\ is_console (enc c) = true)
  /\ (IsDevelopment cfg = true ->
      exists l c, snd run = Return (Some l, None)
                  /\ core_of (Some l) = Some c /\ is_console (enc c) = true).
Proof.
  intros run. subst run.
  destruct (NewLogger_run cfg w) as (z & encoder & Hret & Hcore & Hdev & _).
  split.
  - intros _ Hfold. eexists _, _. split; [exact Hret|]. split.
    + simpl. rewrite Hcore. reflexivity.
    + simpl. rewrite Hdev.
      rewrite (ToLower_of_eq_fold ToLower HT _ "true" eq_refl eq_refl Hfold).
      apply orb_true_r.
  - intros Hflag. eexists _, _. split; [exact Hret|]. split.
    + simpl. rewrite Hcore. reflexivity.
    + simpl. rewrite Hdev, Hflag. reflexivity.
Qed.

(** Otherwise the logger encodes JSON. *)
Lemma NewLogger_json_encoding cfg w :
  IsDevelopment cfg = false ->
  ToLower (lookup_env w "DEV_MODE") <> "true" ->
  exists l c, snd (NewLogger ToLower cfg w) = Return (Some l, None)
              /\ core_of (Some l) = Some c /\ is_console (enc c) = false.
Proof.
  intros Hflag Henv.
  destruct (NewLogger_run cfg w) as (z & encoder & Hret & Hcore & Hdev & _).
  eexists _, _. split; [exact Hret|]. split.
  - simpl. rewrite Hcore. reflexivity.
  - simpl. rewrite Hdev, Hflag. simpl. now apply String.eqb_neq.
Qed.

(** C5. The level comes from [LOG_LEVEL], matched without regard to case:
    the value is lowered and compared with debug, info, warn, error, fatal
    and panic. A value lowered to one of the six names, as every value equal
    to it up to ASCII case is, selects that level and prints nothing. Every
    other value, so an absent one, one lowered to none of the six names, or
    an ASCII one that equals none of them up to case, selects info, and the
    warning is printed on standard output before anything else happens. One
    of the two holds of every value. *)
Theorem NewLogger_level (HT : lowers_ascii ToLower) cfg w :
  let run := NewLogger ToLower cfg w in
  let value := lookup_env w "LOG_LEVEL" in
  (forall name lvl,
      In (name, lvl) level_names ->
      ToLower value = name \/ eq_fold value name = true ->
      exists l c, snd run = Return (Some l, None)
                  /\ core_of (Some l) = Some c /\ level c = lvl
                  /\ printed (trace (fst run)) = printed (trace w))
  /\ (environ w !! "LOG_LEVEL" = None
      \/ (forall name lvl, In (name, lvl) level_names -> ToLower value <> name)
      \/ (is_ascii value = true
          /\ forall name lvl, In (name, lvl) level_names -> eq_fold value name = false) ->
      exists l c, snd run = Return (Some l, None)
                  /\ core_of (Some l) = Some c /\ level c = InfoLevel
                  /\ printed (trace (fst run))
                     = printed (trace w) ++ [Sprintf invalid_level_warning []]
                  /\ exists rest,
                      trace (fst run)
                      = trace w ++ Printed (Sprintf invalid_level_warning []) :: rest)
  /\ ((exists name lvl, In (name, lvl) level_names /\ ToLower value = name)
      \/ (forall name lvl, In (name, lvl) level_names -> ToLower value <> name)).
Proof.
  intros run value. subst run value.
  destruct (NewLogger_run cfg w)
    as (z & encoder & Hret & Hcore & _ & _ & _ & Htrace).
  split; [|split].
  - intros name lvl Hin Hmatch.
    destruct (parse_level_name name lvl Hin) as (Hparse & Hascii & Hlow).
    assert (Hlowered : ToLower (lookup_env w "LOG_LEVEL") = name).
    { destruct Hmatch as [Heq | Hfold]; [exact Heq|].
      exact (ToLower_of_eq_fold ToLower HT _ name Hascii Hlow Hfold). }
    rewrite Hlowered, Hparse in *.
    eexists _, _. split; [exact Hret|]. split; [simpl; rewrite Hcore; reflexivity|].
    split; [reflexivity|].
    rewrite Htrace, !printed_app, printed_Logged. simpl.
    rewrite ?app_nil_r. reflexivity.
  - intros Hunknown.
    assert (Hparse : parse_level (ToLower (lookup_env w "LOG_LEVEL")) = None).
    { destruct Hunknown as [Habsent | [Hnone | [Hascii Hnone]]].
      - unfold lookup_env. rewrite Habsent. simpl.
        rewrite (HT "" eq_refl). reflexivity.
      - now apply parse_level_unknown.
      - apply parse_level_unknown. intros name lvl Hin Heq.
        destruct (parse_level_name name lvl Hin) as (_ & _ & Hlow).
        rewrite (HT _ Hascii), <- Hlow in Heq.
        apply lower_eq_fold in Heq.
        rewrite (Hnone name lvl Hin) in Heq. discriminate Heq. }
    rewrite Hparse in *.
    eexists _, _. split; [exact Hret|]. split; [simpl; rewrite Hcore; reflexivity|].
    split; [reflexivity|]. split.
    + rewrite Htrace, !printed_app, printed_Logged. simpl.
      rewrite ?app_nil_r. reflexivity.
    + eexists. rewrite Htrace. reflexivity.
  - apply lowered_name_or_not.
Qed.

End LoggerFacts.

(* ===================================================================== *)
(** ** Logger methods                                                      *)
(* ===================================================================== *)

Section LoggerMethods.
Import zapcore os logger.
Implicit Types (l : option Logger) (args : list any) (template : string) (w : World).

Lemma guarded_uninitialized l call w :
  uninitialized l = true -> guarded l call w = (w, Return tt).
Proof.
  destruct l as [[z [s|]]|]; simpl; intros H; (discriminate H || reflexivity).
Qed.

Lemma guarded_initialized lg s call :
  sugar lg = Some s -> guarded (Some lg) call = call s.
Proof. intros H. simpl. now rewrite H. Qed.

(** C7. On an absent logger, or one whose sugared logger is absent, the
    debug, info, warn and error methods, plain or with a template, return
    normally and leave the process as it was: nothing is written. *)
Theorem leveled_methods_noop_when_uninitialized l args template w :
  uninitialized l = true ->
  Debug l args w = (w, Return tt)
  /\ Debugf l template args w = (w, Return tt)
  /\ Info l args w = (w, Return tt)
  /\ Infof l template args w = (w, Return tt)
  /\ Warn l args w = (w, Return tt)
  /\ Warnf l template args w = (w, Return tt)
  /\ Error l args w = (w, Return tt)
  /\ Errorf l template args w = (w, Return tt).
Proof.
  intros H. repeat split; now apply guarded_uninitialized.
Qed.

(** On an initialized logger the same methods reach the facility: the
    record is written when the level of the core allows it. *)
Lemma leveled_methods_write lg s args w :
  sugar lg = Some s ->
  let c := zap.core (zap.base s) in
  Enabled (level c) ErrorLevel = true ->
  Error (Some lg) args w
  = (emit (Logged (out c) (enc c) ErrorLevel (Sprint args)) w, Return tt).
Proof.
  intros H c Hon. unfold Error. rewrite (guarded_initialized lg s _ H).
  unfold zap.Error, zap.log. fold c. now rewrite Hon.
Qed.

(** C8. [Sync] on an absent logger, or on one whose zap logger is absent,
    returns a nil error and does nothing. *)
Theorem Sync_uninitialized_succeeds w :
  Sync None w = (w, Return None)
  /\ forall s, Sync (Some {| zap := None; sugar := s |}) w = (w, Return None).
Proof. split; reflexivity. Qed.

(** On an initialized logger [Sync] reaches the sink. *)
Lemma Sync_initialized z s w :
  Sync (Some {| zap := Some z; sugar := s |}) w
  = (emit (Synced (out (zap.core z))) w, Return (sync_result w (out (zap.core z)))).
Proof. reflexivity. Qed.

(** C2 (as amended). The fatal and panic methods open with the same guard as
    the other leveled methods: on an absent logger, or one whose sugared
    logger is absent, they return normally and nothing is written, the
    process neither exits nor panics. On an initialized logger each is the
    call of the facility on the sugared logger, whose contract is kept: the
    fatal methods write the record, after which the facility syncs the
    sink, and exit with status 1; the panic methods panic with the message,
    after the record and the sync when the level of the logger lets
    panic-level records through. *)
Theorem fatal_and_panic_are_guarded l args template w :
  (uninitialized l = true ->
   Fatal l args w = (w, Return tt)
   /\ Fatalf l template args w = (w, Return tt)
   /\ Panic l args w = (w, Return tt)
   /\ Panicf l template args w = (w, Return tt))
  /\ (forall lg s,
      l = Some lg -> sugar lg = Some s ->
      let c := zap.core (zap.base s) in
      let after := fun lvl msg =>
        emit (Synced (out c)) (emit (Logged (out c) (enc c) lvl msg) w) in
      (Fatal l args w = zap.Fatal s args w
       /\ Fatalf l template args w = zap.Fatalf s template args w
       /\ Panic l args w = zap.Panic s args w
       /\ Panicf l template args w = zap.Panicf s template args w)
      /\ Fatal l args w = (after FatalLevel (Sprint args), Exit 1)
      /\ Fatalf l template args w
         = (after FatalLevel (zap.getMessage template args), Exit 1)
      /\ Panic l args w
         = (if Enabled (level c) PanicLevel
            then after PanicLevel (Sprint args) else w,
            Go.Panic (Sprint args))
      /\ Panicf l template args w
         = (if Enabled (level c) PanicLevel
            then after PanicLevel (zap.getMessage template args) else w,
            Go.Panic (zap.getMessage template args))).
Proof.
  split.
  - intros H. repeat split; now apply guarded_uninitialized.
  - intros lg s -> Hs c after. subst after.
    unfold Fatal, Fatalf, Panic, Panicf.
    rewrite !(guarded_initialized lg s _ Hs).
    split; [repeat split|].
    unfold zap.Fatal, zap.Fatalf, zap.Panic, zap.Panicf, zap.log. fold c.
    destruct (level c); repeat split.
Qed.

End LoggerMethods.

(** The adapter at the ends of the [int64] range. *)
Example adapter_GetObjectByID_bounds :
  let r := repository.NewMyObjectRepository in
  repository.GetObjectByID r 0%Z = (zero : entity.MyObject, None)
  /\ repository.GetObjectByID r (-1)%Z = (zero : entity.MyObject, None)
  /\ repository.GetObjectByID r MinInt64 = (zero : entity.MyObject, None)
  /\ repository.GetObjectByID r MaxInt64 = (zero : entity.MyObject, None)
  /\ in_int64 MinInt64 && in_int64 MaxInt64 && negb (in_int64 (MaxInt64 + 1)%Z) = true.
Proof. repeat split. Qed.

(** C1, witness: the counting port, asked once. *)
Lemma usecase_delegates_witness :
  usecases.GetAllObjects
    (usecases.NewMyObjectUseCase (Some (samples.counting [samples.widget]))) 0
  = (1, Return (Slice [samples.widget], None))
  /\ usecases.GetObjectByID
       (usecases.NewMyObjectUseCase (Some (samples.counting [samples.widget]))) 8%Z 0
     = (1, Return (zero, errors_New "not found")).
Proof.
  destruct (usecase_delegates (samples.counting [samples.widget]) 0 8%Z)
    as [Hall Hone].
  destruct (Hall 1 (Slice [samples.widget]) None eq_refl) as [objects' [Hrun [Hok _]]].
  destruct (Hone 1 zero (errors_New "not found") eq_refl) as [object' [Hrun' [_ Herr]]].
  rewrite Hrun, Hrun', (Hok eq_refl), (Herr ltac:(discriminate)).
  split; reflexivity.
Defined.

(** C1, counterexample: a port that fails and hands back a value next to
    the error. The use case does not return what the port returned. *)
Lemma usecase_changes_failing_result :
  let uc := usecases.NewMyObjectUseCase (Some samples.partial_failure) in
  ports.GetAllObjects samples.partial_failure tt
  = (tt, Return (Slice [samples.widget], errors_New "connection lost"))
  /\ usecases.GetAllObjects uc tt
     = (tt, Return (NilSlice, errors_New "connection lost"))
  /\ usecases.GetAllObjects uc tt <> ports.GetAllObjects samples.partial_failure tt
  /\ usecases.GetObjectByID uc 7%Z tt
     <> ports.GetObjectByID samples.partial_failure 7%Z tt.
Proof. repeat split; discriminate. Qed.

(** C6, witness: the failing port. *)
Lemma usecase_discards_value_on_error_witness :
  usecases.GetAllObjects
    (usecases.NewMyObjectUseCase (Some samples.partial_failure)) tt
  = (tt, Return (NilSlice, errors_New "connection lost"))
  /\ usecases.GetObjectByID
       (usecases.NewMyObjectUseCase (Some samples.partial_failure)) 7%Z tt
     = (tt, Return (zero, errors_New "stale read")).
Proof.
  destruct (usecase_discards_value_on_error samples.partial_failure tt 7%Z)
    as [Hall Hone].
  split.
  - exact (Hall tt (Slice [samples.widget]) "connection lost" eq_refl).
  - exact (Hone tt samples.widget "stale read" eq_refl).
Defined.

(* ===================================================================== *)
(** ** The logger on sample processes                                      *)
(* ===================================================================== *)

(** [main] calls [NewLogger] with the zero configuration. With no variable
    set, the warning is printed and the confirmation is the one record. *)
Example NewLogger_default_run :
  let run := logger.NewLogger ascii_ToLower zero (samples.process []) in
  os.printed (os.trace (fst run)) = [Sprintf logger.invalid_level_warning []]
  /\ os.records (os.trace (fst run))
     = [(zapcore.InfoLevel, Sprint [AnyString "Logger successfully initialized."])].
Proof. vm_compute. split; reflexivity. Qed.

Example NewLogger_debug_run :
  let run := logger.NewLogger ascii_ToLower zero
               (samples.process [("LOG_LEVEL", "DEBUG"); ("DEV_MODE", "True")]) in
  os.printed (os.trace (fst run)) = []
  /\ os.records (os.trace (fst run))
     = [(zapcore.InfoLevel, Sprint [AnyString "Logger successfully initialized."]);
        (zapcore.DebugLevel,
         Sprint [AnyString "Development mode ENABLED (console output)."]);
        (zapcore.DebugLevel, Sprintf "Log level: %s" [AnyStringer "debug"])].
Proof. vm_compute. split; reflexivity. Qed.

(** An unknown level name falls back to info, with the warning. *)
Example NewLogger_unknown_level_run :
  let run := logger.NewLogger ascii_ToLower zero
               (samples.process [("LOG_LEVEL", "verbose")]) in
  os.printed (os.trace (fst run)) = [Sprintf logger.invalid_level_warning []]
  /\ zapcore.level <$> logger.core_of (logger.built run) = Some zapcore.InfoLevel
  /\ zapcore.is_console <$> (zapcore.enc <$> logger.core_of (logger.built run))
     = Some false.
Proof. vm_compute. repeat split. Qed.

(** C3, counterexample: with [LOG_LEVEL=error] construction succeeds and
    nothing at all is emitted, neither on standard output nor on the sink. *)
Lemma NewLogger_error_level_emits_nothing :
  let run := logger.NewLogger ascii_ToLower zero
               (samples.process [("LOG_LEVEL", "error")]) in
  returned run = true
  /\ os.trace (fst run) = []
  /\ length (os.records (os.trace (fst run))) <> 2.
Proof. vm_compute. repeat split. discriminate. Qed.

(** C4, witness: [DEV_MODE=TrUe] with the zero configuration, and the flag
    set with [DEV_MODE=false]. *)
Lemma NewLogger_console_encoding_witness :
  (exists l c,
      snd (logger.NewLogger ascii_ToLower zero (samples.process [("DEV_MODE", "TrUe")]))
      = Return (Some l, None)
      /\ logger.core_of (Some l) = Some c
      /\ zapcore.is_console (zapcore.enc c) = true)
  /\ (exists l c,
      snd (logger.NewLogger ascii_ToLower
             {| logger.IsDevelopment := true; logger.Output := None;
                logger.CallerSkip := 0 |}
             (samples.process [("DEV_MODE", "false")]))
      = Return (Some l, None)
      /\ logger.core_of (Some l) = Some c
      /\ zapcore.is_console (zapcore.enc c) = true).
Proof.
  split.
  - pose proof (NewLogger_console_encoding ascii_ToLower ascii_ToLower_lowers_ascii
                  zero (samples.process [("DEV_MODE", "TrUe")])) as H.
    cbv zeta in H. destruct H as [H _]. apply H; reflexivity.
  - pose proof (NewLogger_console_encoding ascii_ToLower ascii_ToLower_lowers_ascii
                  {| logger.IsDevelopment := true; logger.Output := None;
                     logger.CallerSkip := 0 |}
                  (samples.process [("DEV_MODE", "false")])) as H.
    cbv zeta in H. destruct H as [_ H]. apply H; reflexivity.
Defined.

Lemma ToLower_dotted_lowers_ascii : lowers_ascii samples.ToLower_dotted.
Proof.
  intros s. induction s as [|c tail IH]; [reflexivity|].
  intros Hascii. simpl in Hascii. apply andb_prop in Hascii as [Hc Htail].
  specialize (IH Htail).
  destruct tail as [|d rest]; [reflexivity|].
  change (samples.ToLower_dotted (String c (String d rest)))
    with (if ((N_of_ascii c =? 196) && (N_of_ascii d =? 176))%N
          then String "i"%char (samples.ToLower_dotted rest)
          else String (lower_byte c) (samples.ToLower_dotted (String d rest))).
  assert (Hne : (N_of_ascii c =? 196)%N = false).
  { apply N.eqb_neq. apply N.ltb_lt in Hc. lia. }
  rewrite Hne. simpl andb. cbv iota. rewrite IH. reflexivity.
Qed.

(** C5, witness: [LOG_LEVEL=WaRn] selects warn; no [LOG_LEVEL] selects info
    and prints the warning; PANIC written with U+0130 for its I, which is
    lowered to panic, selects panic and prints nothing. *)
Lemma NewLogger_level_witness :
  (exists l c,
      snd (logger.NewLogger ascii_ToLower zero (samples.process [("LOG_LEVEL", "WaRn")]))
      = Return (Some l, None)
      /\ logger.core_of (Some l) = Some c
      /\ zapcore.level c = zapcore.WarnLevel
      /\ os.printed
           (os.trace
              (fst (logger.NewLogger ascii_ToLower zero
                      (samples.process [("LOG_LEVEL", "WaRn")]))))
         = [])
  /\ (exists l c,
      snd (logger.NewLogger ascii_ToLower zero (samples.process []))
      = Return (Some l, None)
      /\ logger.core_of (Some l) = Some c
      /\ zapcore.level c = zapcore.InfoLevel
      /\ os.printed
           (os.trace (fst (logger.NewLogger ascii_ToLower zero (samples.process []))))
         = [Sprintf logger.invalid_level_warning []])
  /\ (let value := String.append "PAN" (String.append samples.dotted_I "C") in
      is_ascii value = false
      /\ exists l c,
        snd (logger.NewLogger samples.ToLower_dotted zero
               (samples.process [("LOG_LEVEL", value)]))
        = Return (Some l, None)
        /\ logger.core_of (Some l) = Some c
        /\ zapcore.level c = zapcore.PanicLevel
        /\ os.printed
             (os.trace
                (fst (logger.NewLogger samples.ToLower_dotted zero
                        (samples.process [("LOG_LEVEL", value)]))))
           = []).
Proof.
  split; [|split].
  - pose proof (NewLogger_level ascii_ToLower ascii_ToLower_lowers_ascii
                  zero (samples.process [("LOG_LEVEL", "WaRn")])) as H.
    cbv zeta in H. destruct H as [H _].
    apply (H "warn" zapcore.WarnLevel).
    + simpl. tauto.
    + right. reflexivity.
  - pose proof (NewLogger_level ascii_ToLower ascii_ToLower_lowers_ascii
                  zero (samples.process [])) as H.
    cbv zeta in H. destruct H as [_ [H _]].
    destruct (H (or_introl eq_refl)) as (l & c & Hret & Hcore & Hlvl & Hprinted & _).
    exists l, c. repeat split; assumption.
  - intros value. split; [reflexivity|].
    pose proof (NewLogger_level samples.ToLower_dotted ToLower_dotted_lowers_ascii
                  zero (samples.process [("LOG_LEVEL", value)])) as H.
    cbv zeta in H. destruct H as [H _].
    apply (H "panic" zapcore.PanicLevel).
    + simpl. tauto.
    + left. reflexivity.
Defined.

(** C7, witness: the nil pointer and the zero [Logger{}]. *)
Lemma leveled_methods_noop_witness :
  logger.Info None [AnyString "hello"] (samples.process [])
  = (samples.process [], Return tt)
  /\ logger.Errorf (Some samples.empty_logger) "code %d" [AnyInt 3] (samples.process [])
     = (samples.process [], Return tt).
Proof.
  split.
  - apply (leveled_methods_noop_when_uninitialized
             None [AnyString "hello"] "" (samples.process []) eq_refl).
  - apply (leveled_methods_noop_when_uninitialized
             (Some samples.empty_logger) [AnyInt 3] "code %d" (samples.process [])
             eq_refl).
Defined.

(** On the initialized sample logger [Error] does write. *)
Example Error_on_info_logger :
  os.records (os.trace (fst (logger.Error (Some samples.info_logger)
                               [AnyString "disk full"] (samples.process []))))
  = [(zapcore.ErrorLevel, Sprint [AnyString "disk full"])].
Proof. reflexivity. Qed.

(** C2, counterexample: on the nil logger [Fatal] and [Panic] return as if
    nothing had been asked; the process goes on and nothing is written. *)
Lemma fatal_on_nil_logger_returns :
  let w := samples.process [] in
  logger.Fatal None [AnyString "boom"] w = (w, Return tt)
  /\ (forall code, snd (logger.Fatal None [AnyString "boom"] w) <> Exit code)
  /\ logger.Panic None [AnyString "boom"] w = (w, Return tt)
  /\ (forall v, snd (logger.Panic None [AnyString "boom"] w) <> Go.Panic v).
Proof. repeat split; discriminate. Qed.

(** C2, witness: the nil logger, and the initialized sample logger. *)
Lemma fatal_and_panic_are_guarded_witness :
  logger.Fatalf None "%s" [AnyString "boom"] (samples.process [])
  = (samples.process [], Return tt)
  /\ snd (logger.Fatal (Some samples.info_logger) [AnyString "boom"] (samples.process []))
     = Exit 1
  /\ os.trace (fst (logger.Fatal (Some samples.info_logger) [AnyString "boom"]
                      (samples.process [])))
     = [os.Logged zapcore.Stdout
          (zapcore.NewJSONEncoder zap.NewProductionEncoderConfig)
          zapcore.FatalLevel (Sprint [AnyString "boom"]);
        os.Synced zapcore.Stdout]
  /\ snd (logger.Panic (Some samples.info_logger) [AnyString "boom"] (samples.process []))
     = Go.Panic (Sprint [AnyString "boom"]).
Proof.
  split.
  - apply (fatal_and_panic_are_guarded
             None [AnyString "boom"] "%s" (samples.process [])).
    reflexivity.
  - destruct (fatal_and_panic_are_guarded
                (Some samples.info_logger) [AnyString "boom"] "%s" (samples.process []))
      as [_ H].
    destruct (H samples.info_logger _ eq_refl eq_refl)
      as (_ & Hfatal & _ & Hpanic & _).
    rewrite Hfatal, Hpanic. repeat split.
Defined.

(* ===================================================================== *)
(** ** More on the use case                                                *)
(* ===================================================================== *)

Section UseCaseEffects.
Context {MyObject : Type} `{!Zero MyObject} {S : Type}.
Implicit Types (p : ports.MyObjectRepository MyObject S) (s : S) (id : int64).

(** X1. The use case adds no effect of its own to those of the port: it ends
    in the state the port operation ended in; when the port operation exits
    the process or panics, so does the use case, with the same code or
    value; when it returns, the use case returns with the same error. *)
Theorem usecase_passes_effects_through p s id :
  let uc := usecases.NewMyObjectUseCase (Some p) in
  (fst (usecases.GetAllObjects uc s) = fst (ports.GetAllObjects p s)
   /\ match snd (ports.GetAllObjects p s) with
      | Return (_, err) =>
          exists objects, snd (usecases.GetAllObjects uc s) = Return (objects, err)
      | Exit code => snd (usecases.GetAllObjects uc s) = Exit code
      | Panic v => snd (usecases.GetAllObjects uc s) = Panic v
      end)
  /\ (fst (usecases.GetObjectByID uc id s) = fst (ports.GetObjectByID p id s)
     /\ match snd (ports.GetObjectByID p id s) with
        | Return (_, err) =>
            exists object, snd (usecases.GetObjectByID uc id s) = Return (object, err)
        | Exit code => snd (usecases.GetObjectByID uc id s) = Exit code
        | Panic v => snd (usecases.GetObjectByID uc id s) = Panic v
        end).
Proof.
  intros uc. subst uc. split.
  - rewrite GetAllObjects_run.
    destruct (ports.GetAllObjects p s) as [s' [[objects [e|]]|code|v]];
      simpl; split; eauto.
  - rewrite GetObjectByID_run.
    destruct (ports.GetObjectByID p id s) as [s' [[object [e|]]|code|v]];
      simpl; split; eauto.
Qed.

(** X2. A use case injected as the port of a second use case: the second
    answers exactly as the first, in the same state. Dropping the value
    that comes with an error is done once and for all. *)
Theorem usecase_stacking_idempotent p s id :
  let inner := usecases.NewMyObjectUseCase (Some p) in
  let outer := usecases.NewMyObjectUseCase (Some (usecase_as_port inner)) in
  usecases.GetAllObjects outer s = usecases.GetAllObjects inner s
  /\ usecases.GetObjectByID outer id s = usecases.GetObjectByID inner id s.
Proof.
  intros inner outer. subst inner outer. split.
  - rewrite (GetAllObjects_run (usecase_as_port _)). simpl ports.GetAllObjects.
    rewrite GetAllObjects_run.
    destruct (ports.GetAllObjects p s) as [s' [[objects [e|]]|code|v]]; reflexivity.
  - rewrite (GetObjectByID_run (usecase_as_port _)). simpl ports.GetObjectByID.
    rewrite GetObjectByID_run.
    destruct (ports.GetObjectByID p id s) as [s' [[object [e|]]|code|v]]; reflexivity.
Qed.

(** X3. [NewMyObjectUseCase] accepts a nil port and still returns a use
    case; the failure shows at the first call: with a nil port, and with a
    nil receiver, both methods panic on the nil dereference and leave the
    state as it was. *)
Theorem usecase_without_port_panics (uc : option (usecases.MyObjectUseCase MyObject S)) s id :
  uc = None \/ uc = usecases.NewMyObjectUseCase None ->
  usecases.NewMyObjectUseCase (MyObject := MyObject) (S := S) None <> None
  /\ usecases.GetAllObjects uc s = (s, Panic nil_dereference)
  /\ usecases.GetObjectByID uc id s = (s, Panic nil_dereference).
Proof.
  intros [-> | ->]; repeat split; discriminate.
Qed.

End UseCaseEffects.

(** X3, witness: a use case built on [nil]. *)
Lemma usecase_without_port_panics_witness :
  usecases.GetObjectByID
    (usecases.NewMyObjectUseCase (MyObject := entity.MyObject) (S := nat) None) 7%Z 0
  = (0, Panic nil_dereference).
Proof.
  apply (usecase_without_port_panics
           (usecases.NewMyObjectUseCase (MyObject := entity.MyObject) None) 0 7%Z).
  right. reflexivity.
Defined.

(* ===================================================================== *)
(** ** More on logger construction                                        *)
(* ===================================================================== *)

Section ConstructionFacts.
Import zapcore os logger app.
Variable ToLower : string -> string.

(** One run of [NewLogger], with every part of the logger spelled out. *)
Lemma NewLogger_explicit cfg w :
  let lvl := default InfoLevel (parse_level (ToLower (lookup_env w "LOG_LEVEL"))) in
  let dev := IsDevelopment cfg || String.eqb (ToLower (lookup_env w "DEV_MODE")) "true" in
  let output := default Stdout (Output cfg) in
  let encoder :=
    if dev
    then NewConsoleEncoder
           {| MessageKey := "M"; LevelKey := "L"; TimeKey := "T";
              CallerKey := "caller"; StacktraceKey := "S";
              EncodeLevel := CapitalColorLevelEncoder;
              EncodeTime := ISO8601TimeEncoder |}
    else NewJSONEncoder
           {| MessageKey := "message"; LevelKey := "level";
              TimeKey := "timestamp"; CallerKey := "caller";
              StacktraceKey := "stacktrace";
              EncodeLevel := CapitalLevelEncoder;
              EncodeTime := ISO8601TimeEncoder |} in
  let z :=
    {| zap.core := NewCore encoder output lvl;
       zap.addCaller := true;
       zap.callerSkip := if (CallerSkip cfg <=? 0)%Z then 1%Z else CallerSkip cfg;
       zap.addStack := Some ErrorLevel |} in
  NewLogger ToLower cfg w
  = (extend w
       ((if parse_level (ToLower (lookup_env w "LOG_LEVEL")) is Some _ then []
         else [Printed (Sprintf invalid_level_warning [])])
        ++ map (fun call => Logged output encoder (fst call) (snd call))
               (let_through lvl (startup_calls dev lvl))),
     Return (Some {| zap := Some z; sugar := Some (zap.Sugar z) |}, None)).
Proof.
  intros lvl dev output encoder z.
  unfold NewLogger, mbind, M_bind, bind, mret, M_ret, ret, Getenv, Printf.
  subst z encoder lvl dev output. unfold parse_level, extend. simpl find.
  set (tag := ToLower (lookup_env w "LOG_LEVEL")).
  destruct (String.eqb tag "debug");
    [|destruct (String.eqb tag "info");
      [|destruct (String.eqb tag "warn");
        [|destruct (String.eqb tag "error");
          [|destruct (String.eqb tag "fatal");
            [|destruct (String.eqb tag "panic")]]]]];
    destruct (IsDevelopment cfg);
    simpl; unfold lookup_env; simpl;
    try destruct (String.eqb (ToLower _) "true");
    simpl; unfold emit; simpl;
    rewrite <- ?app_assoc, ?app_nil_r; try reflexivity;
    destruct w; reflexivity.
Qed.
Lemma extend_extend w added more :
  extend (extend w added) more = extend w (added ++ more).
Proof. unfold extend. simpl. now rewrite app_assoc. Qed.

Lemma lowered_is_true (HT : lowers_ascii ToLower) v :
  is_ascii v = true -> String.eqb (ToLower v) "true" = eq_fold v "true".
Proof.
  intros Hascii. rewrite (HT v Hascii).
  destruct (eq_fold v "true") eqn:Hfold.
  - apply String.eqb_eq. now rewrite (eq_fold_lower v "true" Hfold).
  - apply String.eqb_neq. intros Heq.
    rewrite (lower_eq_fold v "true" Heq) in Hfold. discriminate Hfold.
Qed.

Lemma Logged_written_through ws e calls :
  Forall (written_through ws e)
         (map (fun call => Logged ws e (fst call) (snd call)) calls).
Proof.
  induction calls as [|call calls IH]; simpl; constructor; [split; reflexivity | exact IH].
Qed.

(** X4. [NewLogger] has one way to return: whenever it returns, the error
    is nil, the logger is not nil, its zap and sugared loggers are both
    present, and the environment is as it was. With no [cfg.Output], so
    writing to standard output, it does return, for every environment and
    every other field of the configuration: it neither exits nor panics and
    only appends to what the process has emitted. *)
Theorem NewLogger_returns_initialized_logger cfg w :
  (forall w' l e,
      NewLogger ToLower cfg w = (w', Return (l, e)) ->
      e = None
      /\ environ w' = environ w
      /\ uninitialized l = false
      /\ exists lg z, l = Some lg /\ zap lg = Some z /\ sugar lg = Some (zap.Sugar z))
  /\ (Output cfg = None ->
      exists lg z added,
        NewLogger ToLower cfg w = (extend w added, Return (Some lg, None))
        /\ zap lg = Some z
        /\ sugar lg = Some (zap.Sugar z)
        /\ out (zap.core z) = Stdout).
Proof.
  pose proof (NewLogger_explicit cfg w) as H. cbv zeta in H.
  split.
  - intros w' l e Hrun. rewrite H in Hrun.
    injection Hrun as <- <- <-. repeat split. eexists _, _. repeat split.
  - intros Hout. eexists _, _, _. split; [exact H|].
    cbn [zap.core out]. rewrite Hout. repeat split.
Qed.

(** X5. The mode, in full: with an ASCII [DEV_MODE] value the logger encodes
    for the console exactly when the development flag is set or the value
    equals "true" up to case. Any other value, or none, leaves the JSON
    encoding, and a false flag does not override [DEV_MODE=true]. *)
Theorem NewLogger_console_iff (HT : lowers_ascii ToLower) cfg w :
  is_ascii (lookup_env w "DEV_MODE") = true ->
  exists l c,
    snd (NewLogger ToLower cfg w) = Return (Some l, None)
    /\ core_of (Some l) = Some c
    /\ is_console (enc c)
       = IsDevelopment cfg || eq_fold (lookup_env w "DEV_MODE") "true".
Proof.
  intros Hascii.
  pose proof (NewLogger_explicit cfg w) as H. cbv zeta in H.
  eexists _, _. rewrite H. split; [reflexivity|]. split; [reflexivity|].
  cbn [enc]. rewrite (lowered_is_true HT _ Hascii).
  destruct (IsDevelopment cfg || eq_fold _ _); reflexivity.
Qed.

(** X6. The sink: the logger writes to [cfg.Output] when one is given and to
    standard output otherwise, and every record written during construction
    went to that sink through the encoder the logger keeps. *)
Theorem NewLogger_sink cfg w :
  exists l c added,
    NewLogger ToLower cfg w = (extend w added, Return (Some l, None))
    /\ core_of (Some l) = Some c
    /\ out c = match Output cfg with Some ws => ws | None => Stdout end
    /\ Forall (written_through (out c) (enc c)) added.
Proof.
  pose proof (NewLogger_explicit cfg w) as H. cbv zeta in H.
  eexists _, _, _. split; [exact H|]. split; [reflexivity|].
  split; [reflexivity|].
  cbn [out enc]. apply Forall_app. split.
  - destruct (parse_level _); repeat constructor.
  - apply Logged_written_through.
Qed.

(** X7. The options: the zap logger annotates callers, skips
    [cfg.CallerSkip] frames when that is positive and one frame otherwise
    (so never fewer than one), and attaches stack traces from the error
    level on. *)
Theorem NewLogger_caller_options cfg w :
  exists l z,
    snd (NewLogger ToLower cfg w) = Return (Some l, None)
    /\ zap l = Some z
    /\ zap.callerSkip z = Z.max 1 (CallerSkip cfg)
    /\ zap.addCaller z = true
    /\ zap.addStack z = Some ErrorLevel.
Proof.
  pose proof (NewLogger_explicit cfg w) as H. cbv zeta in H.
  eexists _, _. rewrite H. split; [reflexivity|]. split; [reflexivity|].
  cbn [zap.callerSkip zap.addCaller zap.addStack]. repeat split.
  destruct (Z.leb_spec (CallerSkip cfg) 0); lia.
Qed.

(** X8. The encoder: in both modes the caller key is "caller" and times are
    ISO 8601; the console encoder colours capital level names; the JSON
    encoder names its fields message, level, timestamp and stacktrace and
    writes capital level names. *)
Theorem NewLogger_encoder_config cfg w :
  exists l c,
    snd (NewLogger ToLower cfg w) = Return (Some l, None)
    /\ core_of (Some l) = Some c
    /\ CallerKey (config_of (enc c)) = "caller"
    /\ EncodeTime (config_of (enc c)) = ISO8601TimeEncoder
    /\ if is_console (enc c)
       then EncodeLevel (config_of (enc c)) = CapitalColorLevelEncoder
       else MessageKey (config_of (enc c)) = "message"
            /\ LevelKey (config_of (enc c)) = "level"
            /\ TimeKey (config_of (enc c)) = "timestamp"
            /\ StacktraceKey (config_of (enc c)) = "stacktrace"
            /\ EncodeLevel (config_of (enc c)) = CapitalLevelEncoder.
Proof.
  pose proof (NewLogger_explicit cfg w) as H. cbv zeta in H.
  eexists _, _. rewrite H. split; [reflexivity|]. split; [reflexivity|].
  cbn [enc]. destruct (IsDevelopment cfg || _); repeat split.
Qed.

(** X9. [NewLogger] reads two variables and nothing else of the process: in
    two processes that agree on [LOG_LEVEL] and [DEV_MODE] it returns the
    same logger and emits the same events, whatever else their environments
    hold and whatever they have emitted before. *)
Theorem NewLogger_reads_two_variables cfg w1 w2 :
  lookup_env w1 "LOG_LEVEL" = lookup_env w2 "LOG_LEVEL" ->
  lookup_env w1 "DEV_MODE" = lookup_env w2 "DEV_MODE" ->
  exists l added,
    NewLogger ToLower cfg w1 = (extend w1 added, Return (Some l, None))
    /\ NewLogger ToLower cfg w2 = (extend w2 added, Return (Some l, None)).
Proof.
  intros Hlevel Hdev.
  pose proof (NewLogger_explicit cfg w1) as H1.
  pose proof (NewLogger_explicit cfg w2) as H2.
  cbv zeta in H1, H2. rewrite <- Hlevel, <- Hdev in H2.
  eexists _, _. split; [exact H1 | exact H2].
Qed.

(** X10. Constructing twice: the second construction returns the same
    logger as the first and emits the same events again. Nothing is kept
    between constructions. *)
Theorem NewLogger_twice cfg w :
  exists l added,
    NewLogger ToLower cfg w = (extend w added, Return (Some l, None))
    /\ (NewLogger ToLower cfg;; NewLogger ToLower cfg) w
       = (extend w (added ++ added), Return (Some l, None)).
Proof.
  pose proof (NewLogger_explicit cfg w) as H1. cbv zeta in H1.
  eexists _, _. split; [exact H1|].
  unfold mbind, M_bind, bind. rewrite H1.
  match goal with |- NewLogger _ _ ?w1 = _ =>
    pose proof (NewLogger_explicit cfg w1) as H2 end.
  cbv zeta in H2. rewrite H2. now rewrite extend_extend.
Qed.

(** X11. [Sync] on the logger [NewLogger] returned syncs the sink the logger
    writes to: standard output unless [cfg.Output] names another. It writes
    no record, and whatever error the sink reports comes back unchanged. *)
Theorem Sync_on_built_logger cfg w :
  exists l added,
    NewLogger ToLower cfg w = (extend w added, Return (Some l, None))
    /\ forall w',
        let ws := match Output cfg with Some ws => ws | None => Stdout end in
        Sync (Some l) w' = (extend w' [Synced ws], Return (sync_result w' ws)).
Proof.
  pose proof (NewLogger_explicit cfg w) as H. cbv zeta in H.
  eexists _, _. split; [exact H|]. intros w' ws. reflexivity.
Qed.

(** X12. The accessors on the logger [NewLogger] returned: [GetZap] gives
    the zap logger and [GetSugar] its sugared form, without any effect.
    Unlike the leveled methods and [Sync], they are not guarded: on a nil
    receiver they panic on the nil dereference. *)
Theorem accessors_on_built_logger cfg w :
  exists l z added,
    NewLogger ToLower cfg w = (extend w added, Return (Some l, None))
    /\ forall w',
        GetZap (Some l) w' = (w', Return (Some z))
        /\ GetSugar (Some l) w' = (w', Return (Some (zap.Sugar z)))
        /\ GetZap None w' = (w', Go.Panic nil_dereference)
        /\ GetSugar None w' = (w', Go.Panic nil_dereference).
Proof.
  pose proof (NewLogger_explicit cfg w) as H. cbv zeta in H.
  eexists _, _, _. split; [exact H|]. intros w'. repeat split.
Qed.

End ConstructionFacts.

(** X4, witness: the zero configuration, as [main] passes it. *)
Lemma NewLogger_returns_initialized_logger_witness :
  exists lg z added,
    logger.NewLogger ascii_ToLower zero (samples.process [("LOG_LEVEL", "debug")])
    = (app.extend (samples.process [("LOG_LEVEL", "debug")]) added,
       Return (Some lg, None))
    /\ logger.zap lg = Some z
    /\ logger.sugar lg = Some (zap.Sugar z)
    /\ zapcore.out (zap.core z) = zapcore.Stdout.
Proof.
  apply (NewLogger_returns_initialized_logger ascii_ToLower zero
           (samples.process [("LOG_LEVEL", "debug")])).
  reflexivity.
Defined.

(** X5, witness: [DEV_MODE=yes] with the zero configuration gives JSON. *)
Lemma NewLogger_console_iff_witness :
  exists l c,
    snd (logger.NewLogger ascii_ToLower zero (samples.process [("DEV_MODE", "yes")]))
    = Return (Some l, None)
    /\ logger.core_of (Some l) = Some c
    /\ zapcore.is_console (zapcore.enc c) = false.
Proof.
  exact (NewLogger_console_iff ascii_ToLower ascii_ToLower_lowers_ascii
           zero (samples.process [("DEV_MODE", "yes")]) eq_refl).
Defined.

(** X9, witness: two processes that differ in [HOME] and in what they have
    printed. *)
Lemma NewLogger_reads_two_variables_witness :
  let w1 := samples.process [("LOG_LEVEL", "warn"); ("HOME", "/root")] in
  let w2 := app.extend (samples.process [("LOG_LEVEL", "warn")])
                       [os.Printed (Sprint [AnyString "earlier"])] in
  exists l added,
    logger.NewLogger ascii_ToLower zero w1 = (app.extend w1 added, Return (Some l, None))
    /\ logger.NewLogger ascii_ToLower zero w2 = (app.extend w2 added, Return (Some l, None)).
Proof.
  intros w1 w2.
  apply (NewLogger_reads_two_variables ascii_ToLower zero w1 w2); reflexivity.
Defined.

(* ===================================================================== *)
(** ** More on the logger methods                                         *)
(* ===================================================================== *)

Section MethodFacts.
Import zapcore os logger app.
Variable ToLower : string -> string.
Implicit Types (l : option Logger) (args : list any) (template : string) (w : World).

(** X14. What the logger [NewLogger] returned lets through, by the level
    resolved from [LOG_LEVEL]: [Debug] writes at debug only; [Info] at debug
    and info; [Warn] at debug, info and warn; [Error] at those and at error.
    At fatal and panic none of the four writes anything. *)
Theorem built_logger_thresholds cfg w args :
  exists lg c added,
    NewLogger ToLower cfg w = (extend w added, Return (Some lg, None))
    /\ core_of (Some lg) = Some c
    /\ level c = default InfoLevel (parse_level (ToLower (lookup_env w "LOG_LEVEL")))
    /\ forall w',
        records (trace (fst (Debug (Some lg) args w')))
        = records (trace w')
          ++ match level c with
             | DebugLevel => [(DebugLevel, Sprint args)]
             | _ => []
             end
        /\ records (trace (fst (Info (Some lg) args w')))
           = records (trace w')
             ++ match level c with
                | DebugLevel | InfoLevel => [(InfoLevel, Sprint args)]
                | _ => []
                end
        /\ records (trace (fst (Warn (Some lg) args w')))
           = records (trace w')
             ++ match level c with
                | DebugLevel | InfoLevel | WarnLevel => [(WarnLevel, Sprint args)]
                | _ => []
                end
        /\ records (trace (fst (Error (Some lg) args w')))
           = records (trace w')
             ++ match level c with
                | DebugLevel | InfoLevel | WarnLevel | ErrorLevel =>
                    [(ErrorLevel, Sprint args)]
                | _ => []
                end.
Proof.
  pose proof (NewLogger_explicit ToLower cfg w) as H. cbv zeta in H.
  eexists _, _, _. split; [exact H|]. split; [reflexivity|].
  split; [reflexivity|]. intros w'.
  unfold Debug, Info, Warn, Error, guarded. cbn [sugar].
  unfold zap.Debug, zap.Info, zap.Warn, zap.Error, zap.log, zap.Sugar.
  cbn [zap.base zap.core level out enc].
  destruct (default InfoLevel _); simpl;
    rewrite ?records_app; simpl; rewrite ?app_nil_r; repeat split.
Qed.

End MethodFacts.


(* ===================================================================== *)
(** ** main                                                                *)
(* ===================================================================== *)

Section MainFacts.
Import zapcore os logger app.
Variable ToLower : string -> string.
Variable Execute : M World unit.

Lemma main_run log_Fatalf w :
  main ToLower Execute log_Fatalf w
  = match Execute (fst (NewLogger ToLower zero w)) with
    | (w2, Return _) => (extend w2 [Synced Stdout], Return tt)
    | (w2, Go.Panic v) => (extend w2 [Synced Stdout], Go.Panic v)
    | (w2, Exit code) => (w2, Exit code)
    end.
Proof.
  pose proof (NewLogger_explicit ToLower zero w) as H. cbv zeta in H.
  unfold main, mbind, M_bind, bind. rewrite H. cbn [fst].
  unfold mret, M_ret, ret, defer.
  destruct (Execute _) as [w2 [[]|code|v]]; reflexivity.
Qed.

(** X15. [main] flushes on the way out: when the command returns, and when
    it panics, the deferred [Sync] runs on standard output after everything
    the command did, and [main] then ends as the command ended. The error
    [Sync] may report is dropped. *)
Theorem main_syncs_after_Execute log_Fatalf w w2 :
  (Execute (fst (NewLogger ToLower zero w)) = (w2, Return tt) ->
   main ToLower Execute log_Fatalf w = (extend w2 [Synced Stdout], Return tt))
  /\ (forall v,
      Execute (fst (NewLogger ToLower zero w)) = (w2, Go.Panic v) ->
      main ToLower Execute log_Fatalf w = (extend w2 [Synced Stdout], Go.Panic v)).
Proof.
  split; [intros H | intros v H]; now rewrite main_run, H.
Qed.

(** X16. When the command ends the process with [os.Exit] (as a fatal log
    does), [main] ends there with the same status and the deferred [Sync]
    does not run. *)
Theorem main_exit_skips_sync log_Fatalf w w2 code :
  Execute (fst (NewLogger ToLower zero w)) = (w2, Exit code) ->
  main ToLower Execute log_Fatalf w = (w2, Exit code).
Proof. intros H. now rewrite main_run, H. Qed.

(** X17. The branch of [main] that reports a failed construction is dead:
    [NewLogger] returns no error, so [log.Fatalf] is never called and
    [main] behaves the same whatever [log.Fatalf] would do. *)
Theorem main_never_calls_Fatalf log_Fatalf log_Fatalf' w :
  main ToLower Execute log_Fatalf w = main ToLower Execute log_Fatalf' w.
Proof. now rewrite !main_run. Qed.

End MainFacts.

(** X15, witness: a command that prints one line and returns. *)
Lemma main_syncs_after_Execute_witness :
  os.trace
    (fst (app.main ascii_ToLower (os.Printf "served" []) (fun _ _ => os_Exit 1%Z)
            (samples.process [("LOG_LEVEL", "error")])))
  = [os.Printed (Sprintf "served" []); os.Synced zapcore.Stdout].
Proof.
  destruct (main_syncs_after_Execute ascii_ToLower (os.Printf "served" [])
              (fun _ _ => os_Exit 1%Z)
              (samples.process [("LOG_LEVEL", "error")])
              (app.extend (samples.process [("LOG_LEVEL", "error")])
                          [os.Printed (Sprintf "served" [])])) as [H _].
  rewrite H; reflexivity.
Defined.

(** X16, witness: a command that exits with status 3. *)
Lemma main_exit_skips_sync_witness :
  app.main ascii_ToLower (os_Exit 3%Z) (fun _ _ => os_Exit 1%Z)
    (samples.process [("LOG_LEVEL", "error")])
  = (samples.process [("LOG_LEVEL", "error")], Exit 3%Z).
Proof.
  apply (main_exit_skips_sync ascii_ToLower (os_Exit 3%Z) (fun _ _ => os_Exit 1%Z)
           (samples.process [("LOG_LEVEL", "error")])).
  reflexivity.
Defined.

(* ===================================================================== *)
(** ** The terminal methods on a constructed logger                        *)
(* ===================================================================== *)

Section TerminalFacts.
Import zapcore os logger app.
Variable ToLower : string -> string.

(** X18. On the logger [NewLogger] returned, by the level resolved from
    [LOG_LEVEL]: [Fatal] writes its record, the sink is synced, and the
    process exits with status 1, at every level; [Panic] always panics with
    its message, after its record and the sync of the sink at every level
    but fatal, where it panics leaving no record and no sync. *)
Theorem terminal_methods_on_built_logger cfg w args :
  exists lg c added,
    NewLogger ToLower cfg w = (extend w added, Return (Some lg, None))
    /\ core_of (Some lg) = Some c
    /\ level c = default InfoLevel (parse_level (ToLower (lookup_env w "LOG_LEVEL")))
    /\ forall w',
        Fatal (Some lg) args w'
        = (extend w' [Logged (out c) (enc c) FatalLevel (Sprint args);
                      Synced (out c)], Exit 1)
        /\ Panic (Some lg) args w'
           = (match level c with
              | FatalLevel => w'
              | _ => extend w' [Logged (out c) (enc c) PanicLevel (Sprint args);
                                Synced (out c)]
              end, Go.Panic (Sprint args)).
Proof.
  pose proof (NewLogger_explicit ToLower cfg w) as H. cbv zeta in H.
  eexists _, _, _. split; [exact H|]. split; [reflexivity|].
  split; [reflexivity|]. intros w'.
  unfold Fatal, Panic, guarded. cbn [sugar].
  unfold zap.Fatal, zap.Panic, zap.log, zap.Sugar.
  cbn [zap.base zap.core level out enc].
  destruct (default InfoLevel _); simpl; unfold emit, extend; simpl;
    rewrite <- ?app_assoc; split; reflexivity.
Qed.

End TerminalFacts.
